(** * Barcode Server: UPC/EAN encoder, composition and C bitmap

    Shallow embedding of [src/unnamed/part_006] (class [BarcodeBitmap]),
    [src/lib/Barcode.js], [src/lib/Text.js] and the bitmap primitives of
    [src/original-code/barcode.c].

    JS strings are lists of [ascii]; [s[i]] is [nth_error s i] ([None] is
    JS [undefined]).  A JS method that may throw or return [null] yields a
    [res]. *)

From Stdlib Require Import ZArith List Ascii String Bool Lia.
Import ListNotations.
Open Scope Z_scope.

(** ** Strings and results *)

Definition jstr := list ascii.

Definition str (s : string) : jstr := list_ascii_of_string s.

(** Result of a JS call: a value, [null], or a thrown [Error]. *)
Inductive res (A : Type) : Type :=
| Ok (a : A)
| Null
| Throw (msg : string).
Arguments Ok {A} a.
Arguments Null {A}.
Arguments Throw {A} msg.

(** [a != c] on a possibly-undefined string element. *)
Definition js_neq (o : option ascii) (c : ascii) : bool :=
  match o with
  | Some a => negb (Ascii.eqb a c)
  | None => true
  end.

(** [a === c]. *)
Definition js_eq (o : option ascii) (c : ascii) : bool := negb (js_neq o c).

(** [a < c] for one-character strings ([undefined < c] is false). *)
Definition js_lt (o : option ascii) (c : ascii) : bool :=
  match o with
  | Some a => (nat_of_ascii a <? nat_of_ascii c)%nat
  | None => false
  end.

(** An element of an array joined by [join('')]: [undefined] becomes ''. *)
Definition js_join1 (o : option ascii) : jstr :=
  match o with Some a => [a] | None => [] end.

(** Element read on the drawing paths, whose strings have been validated to
    the right length before; the default is never used there. *)
Definition at_ (s : jstr) (i : nat) : ascii := nth i s "0"%char.

Definition is_digit (c : ascii) : bool :=
  ((48 <=? nat_of_ascii c) && (nat_of_ascii c <=? 57))%nat.

Definition is_digit_or_q (c : ascii) : bool :=
  is_digit c || Ascii.eqb c "?"%char.

(** [String(n)] for a digit value [0 <= n <= 9]. *)
Definition digit_char (n : Z) : ascii := ascii_of_nat (Z.to_nat (48 + n)).

(** [digits.replace(/[?]/, r)]: replace the first [?]. *)
Fixpoint replace_q (s : jstr) (r : ascii) : jstr :=
  match s with
  | [] => []
  | c :: t => if Ascii.eqb c "?"%char then r :: t else c :: replace_q t r
  end.

(** ** Static tables *)

Definition upcLeftA : list Z :=
  [0x0d; 0x19; 0x13; 0x3d; 0x23; 0x31; 0x2f; 0x3b; 0x37; 0x0b].
Definition upcLeftB : list Z :=
  [0x27; 0x33; 0x1b; 0x21; 0x1d; 0x39; 0x05; 0x11; 0x09; 0x17].
Definition upcRight : list Z :=
  [0x72; 0x66; 0x6c; 0x42; 0x5c; 0x4e; 0x50; 0x44; 0x48; 0x74].
Definition ean13FirstDigit : list Z :=
  [0x00; 0x0b; 0x0d; 0x0e; 0x13; 0x19; 0x1c; 0x15; 0x16; 0x1a].
Definition upcELastDigit : list Z :=
  [0x38; 0x34; 0x32; 0x31; 0x2c; 0x26; 0x23; 0x2a; 0x29; 0x25].

Definition tbl (t : list Z) (i : Z) : Z := nth (Z.to_nat i) t 0.

(** [BarcodeBitmap.#charToDigit]. *)
Definition charToDigit (c : ascii) : Z :=
  let result := Z.of_nat (nat_of_ascii c) - 48 in
  if (0 <=? result) && (result <=? 9) then result else 0.

(** ** Drawings

    The JS [Bitmap] class ([./Bitmap.js]) is not among the sources.  A
    rendered bitmap is represented by its size and the sequence of drawing
    calls made on it, in call order. *)
Inductive op : Type :=
| Vlin (x y1 y2 : Z)
| Char5x8 (x y : Z) (c : ascii)
| String5x8 (x y : Z) (s : jstr)
| CopyRect (dx dy : Z) (src : bitmap) (sx sy w h : Z)
with bitmap : Type :=
| mkBitmap (width height : Z) (ops : list op).

Definition bm_width (b : bitmap) : Z := let 'mkBitmap w _ _ := b in w.
Definition bm_height (b : bitmap) : Z := let 'mkBitmap _ h _ := b in h.
Definition bm_ops (b : bitmap) : list op := let 'mkBitmap _ _ o := b in o.

(** [#drawDigitChar(x, y, c)]: non-digits are drawn as [0]. *)
Definition drawDigitChar (x y : Z) (c : ascii) : list op :=
  let clamped := if is_digit c then c else "0"%char in
  [Char5x8 x y clamped].

Inductive barSet : Type := leftA | leftB | right.

Definition barTable (s : barSet) : list Z :=
  match s with leftA => upcLeftA | leftB => upcLeftB | right => upcRight end.

(** The loop [for (let i = 6; i >= 0; i--) { if (bits & (1 << i)) vlin(x, y1,
    y2); x++; }], entered with [i] and the current [x]. *)
Fixpoint barLoop (bits x y1 y2 : Z) (i : nat) : list op :=
  let here := if Z.testbit bits (Z.of_nat i) then [Vlin x y1 y2] else [] in
  match i with
  | O => here
  | S i' => here ++ barLoop bits (x + 1) y1 y2 i'
  end.

(** [#drawUpcEanDigit(x, y1, y2, n, barSet)]. *)
Definition drawUpcEanDigit (x y1 y2 : Z) (n : ascii) (s : barSet) : list op :=
  let digit := charToDigit n in
  let bits := tbl (barTable s) digit in
  barLoop bits x y1 y2 6.

(** [for (let i = 0; i < n; i++) body(i)]. *)
Definition forN (n : nat) (body : Z -> list op) : list op :=
  List.concat (map (fun i => body (Z.of_nat i)) (seq 0 n)).

Definition nth_z (s : jstr) (i : Z) : ascii := at_ s (Z.to_nat i).

(** [#drawUpcABars(digits, x, y1, barY2, guardY2)]. *)
Definition drawUpcABars (digits : jstr) (x y1 barY2 guardY2 : Z) : list op :=
  [Vlin x y1 guardY2; Vlin (x + 2) y1 guardY2;
   Vlin (x + 46) y1 guardY2; Vlin (x + 48) y1 guardY2;
   Vlin (x + 92) y1 guardY2; Vlin (x + 94) y1 guardY2]
  ++ forN 6 (fun i =>
       drawUpcEanDigit (x + 3 + i * 7) y1
         (if i =? 0 then guardY2 else barY2) (nth_z digits i) leftA
       ++ drawUpcEanDigit (x + 50 + i * 7) y1
         (if i =? 5 then guardY2 else barY2) (nth_z digits (i + 6)) right).

(** [#drawUpcEBars(digits, x, y1, barY2, guardY2)]; [~] is [Z.lnot]. *)
Definition drawUpcEBars (digits : jstr) (x y1 barY2 guardY2 : Z) : list op :=
  let parityRaw := tbl upcELastDigit (charToDigit (nth_z digits 7)) in
  let parityPattern :=
    if Ascii.eqb (nth_z digits 0) "0"%char then parityRaw else Z.lnot parityRaw in
  [Vlin x y1 guardY2; Vlin (x + 2) y1 guardY2;
   Vlin (x + 46) y1 guardY2; Vlin (x + 48) y1 guardY2; Vlin (x + 50) y1 guardY2]
  ++ forN 6 (fun i =>
       let lset := if Z.testbit parityPattern (5 - i) then leftB else leftA in
       drawUpcEanDigit (x + 3 + i * 7) y1 barY2 (nth_z digits (i + 1)) lset).

(** [#drawEan13Bars(digits, x, y1, barY2, guardY2)]. *)
Definition drawEan13Bars (digits : jstr) (x y1 barY2 guardY2 : Z) : list op :=
  let leftPattern := tbl ean13FirstDigit (charToDigit (nth_z digits 0)) in
  [Vlin x y1 guardY2; Vlin (x + 2) y1 guardY2;
   Vlin (x + 46) y1 guardY2; Vlin (x + 48) y1 guardY2;
   Vlin (x + 92) y1 guardY2; Vlin (x + 94) y1 guardY2]
  ++ forN 6 (fun i =>
       let lset := if Z.testbit leftPattern (5 - i) then leftB else leftA in
       drawUpcEanDigit (x + 3 + i * 7) y1 barY2 (nth_z digits (i + 1)) lset
       ++ drawUpcEanDigit (x + 50 + i * 7) y1 barY2 (nth_z digits (i + 7)) right).

(** [#drawEan8Bars(digits, x, y1, barY2, guardY2)]. *)
Definition drawEan8Bars (digits : jstr) (x y1 barY2 guardY2 : Z) : list op :=
  [Vlin x y1 guardY2; Vlin (x + 2) y1 guardY2;
   Vlin (x + 32) y1 guardY2; Vlin (x + 34) y1 guardY2;
   Vlin (x + 64) y1 guardY2; Vlin (x + 66) y1 guardY2]
  ++ forN 4 (fun i =>
       drawUpcEanDigit (x + 3 + i * 7) y1 barY2 (nth_z digits i) leftA
       ++ drawUpcEanDigit (x + 36 + i * 7) y1 barY2 (nth_z digits (i + 4)) right).

(** ** Full- and short-height layouts *)

Definition makeUpcAFull (digits : jstr) (y extraWidth : Z) : bitmap :=
  let height := 60 + y in
  mkBitmap (107 + (if extraWidth <=? 6 then 0 else extraWidth - 6)) height
    (drawUpcABars digits 6 y (height - 10) (height - 4)
     ++ drawDigitChar 0 (height - 14) (nth_z digits 0)
     ++ forN 5 (fun i => drawDigitChar (18 + i * 7) (height - 7) (nth_z digits (i + 1))
                         ++ drawDigitChar (57 + i * 7) (height - 7) (nth_z digits (i + 6)))
     ++ drawDigitChar 103 (height - 14) (nth_z digits 11)).

Definition makeUpcAShort (digits : jstr) (y extraWidth : Z) : bitmap :=
  let height := 40 + y in
  mkBitmap (95 + extraWidth) height
    (drawUpcABars digits 0 y (height - 9) (height - 9)
     ++ forN 12 (fun i => drawDigitChar (13 + i * 6) (height - 7) (nth_z digits i))).

Definition makeUpcEFull (digits : jstr) (y extraWidth : Z) : bitmap :=
  let height := 60 + y in
  mkBitmap (63 + (if extraWidth <=? 6 then 0 else extraWidth - 6)) height
    (drawUpcEBars digits 6 y (height - 10) (height - 4)
     ++ drawDigitChar 0 (height - 14) (nth_z digits 0)
     ++ forN 6 (fun i => drawDigitChar (11 + i * 7) (height - 7) (nth_z digits (i + 1)))
     ++ drawDigitChar 59 (height - 14) (nth_z digits 7)).

Definition makeUpcEShort (digits : jstr) (y extraWidth : Z) : bitmap :=
  let height := 40 + y in
  mkBitmap (51 + extraWidth) height
    (drawUpcEBars digits 0 y (height - 9) (height - 9)
     ++ forN 8 (fun i => drawDigitChar (2 + i * 6) (height - 7) (nth_z digits i))).

Definition makeEan13Full (digits : jstr) (y extraWidth : Z) : bitmap :=
  let height := 60 + y in
  mkBitmap (101 + extraWidth) height
    (drawEan13Bars digits 6 y (height - 10) (height - 4)
     ++ drawDigitChar 0 (height - 7) (nth_z digits 0)
     ++ forN 6 (fun i => drawDigitChar (11 + i * 7) (height - 7) (nth_z digits (i + 1))
                         ++ drawDigitChar (57 + i * 7) (height - 7) (nth_z digits (i + 7)))).

Definition makeEan13Short (digits : jstr) (y extraWidth : Z) : bitmap :=
  let height := 40 + y in
  mkBitmap (95 + extraWidth) height
    (drawEan13Bars digits 0 y (height - 9) (height - 9)
     ++ forN 13 (fun i => drawDigitChar (9 + i * 6) (height - 7) (nth_z digits i))).

Definition makeEan8Full (digits : jstr) (y extraWidth : Z) : bitmap :=
  let height := 60 + y in
  mkBitmap (67 + extraWidth) height
    (drawEan8Bars digits 0 y (height - 10) (height - 4)
     ++ forN 4 (fun i => drawDigitChar (5 + i * 7) (height - 7) (nth_z digits i)
                         ++ drawDigitChar (37 + i * 7) (height - 7) (nth_z digits (i + 4)))).

Definition makeEan8Short (digits : jstr) (y extraWidth : Z) : bitmap :=
  let height := 40 + y in
  mkBitmap (67 + extraWidth) height
    (drawEan8Bars digits 0 y (height - 9) (height - 9)
     ++ forN 8 (fun i => drawDigitChar (10 + i * 6) (height - 7) (nth_z digits i))).

(** ** Validation regexes *)

Definition last_ok (s : jstr) (n : nat) : bool :=
  match nth_error s n with Some c => is_digit_or_q c | None => false end.

(** [/^[0-9]{n}[?0-9]$/]. *)
Definition reDigitsCheck (n : nat) (s : jstr) : bool :=
  (List.length s =? S n)%nat && forallb is_digit (firstn n s) && last_ok s n.

Definition is01 (o : option ascii) : bool := js_eq o "0"%char || js_eq o "1"%char.

Definition prefix0000 (s : jstr) : bool :=
  match s with
  | a :: b :: c :: d :: _ =>
      Ascii.eqb a "0"%char && Ascii.eqb b "0"%char && Ascii.eqb c "0"%char && Ascii.eqb d "0"%char
  | _ => false
  end.

(** [s] contains the substring [0000]. *)
Fixpoint has0000 (s : jstr) : bool :=
  match s with
  | [] => false
  | _ :: t => prefix0000 s || has0000 t
  end.

(** [/^([01]?[0-9]{6}|[01](?=.*0000)[0-9]{10})[?0-9]$/]: the first
    alternative matches 7 or 8 characters, the second 12. *)
Definition reUpcE (s : jstr) : bool :=
  match List.length s with
  | 7%nat => forallb is_digit (firstn 6 s) && last_ok s 6
  | 8%nat => is01 (nth_error s 0) && forallb is_digit (firstn 6 (skipn 1 s))
             && last_ok s 7
  | 12%nat => is01 (nth_error s 0) && has0000 (skipn 1 s)
              && forallb is_digit (firstn 10 (skipn 1 s)) && last_ok s 11
  | _ => false
  end.

(** ** Checksums *)

(** [for (i = 0; i < n; i++) { sum += charToDigit(digits[i]) * mul; mul ^= 2; }],
    run over the first [n] characters. *)
Fixpoint sumLoop (ds : jstr) (mul sum : Z) : Z :=
  match ds with
  | [] => sum
  | c :: t => sumLoop t (Z.lxor mul 2) (sum + charToDigit c * mul)
  end.

(** [String((10 - (sum % 10)) % 10)] for the first [n] digits, from [mul0]. *)
Definition checksumChar (digits : jstr) (n : nat) (mul0 : Z) : ascii :=
  let sum := sumLoop (firstn n digits) mul0 0 in
  digit_char ((10 - sum mod 10) mod 10).

(** ** Public makers *)

(** [BarcodeBitmap.makeUpcA(digits, shortHeight, y, extraWidth)]. *)
Definition makeUpcA (digits : jstr) (shortHeight : bool) (y extraWidth : Z)
  : res bitmap :=
  if negb (reDigitsCheck 11 digits) then Throw "UPC-A must have 12 digits."
  else
    let digits :=
      if js_eq (nth_error digits 11) "?"%char then replace_q digits (checksumChar digits 11 3)
      else digits in
    Ok (if shortHeight then makeUpcAShort digits y extraWidth
        else makeUpcAFull digits y extraWidth).

(** [BarcodeBitmap.makeEan13(digits, shortHeight, y, extraWidth)]. *)
Definition makeEan13 (digits : jstr) (shortHeight : bool) (y extraWidth : Z)
  : res bitmap :=
  if negb (reDigitsCheck 12 digits) then Null
  else
    let digits :=
      if js_eq (nth_error digits 12) "?"%char then replace_q digits (checksumChar digits 12 1)
      else digits in
    Ok (if shortHeight then makeEan13Short digits y extraWidth
        else makeEan13Full digits y extraWidth).

(** [BarcodeBitmap.makeEan8(digits, shortHeight, y, extraWidth)]. *)
Definition makeEan8 (digits : jstr) (shortHeight : bool) (y extraWidth : Z)
  : res bitmap :=
  if negb (reDigitsCheck 7 digits) then Null
  else
    let digits :=
      if js_eq (nth_error digits 7) "?"%char then replace_q digits (checksumChar digits 7 3)
      else digits in
    Ok (if shortHeight then makeEan8Short digits y extraWidth
        else makeEan8Full digits y extraWidth).

(** ** UPC-E compression and expansion *)

Definition invalidUpcE {A} : res A := Throw "Invalid UPC-E expanded form.".

(** [BarcodeBitmap.#compressToUpcEDigits(expanded)]: the eight array slots
    are joined with [join('')]. *)
Definition compressToUpcEDigits (expanded : jstr) : res jstr :=
  let e i := nth_error expanded i in
  let join (l : list (option ascii)) := flat_map js_join1 l in
  let c7 := e 11%nat in
  if js_neq (e 0%nat) "0"%char && js_neq (e 0%nat) "1"%char then
    Throw "UPC-E expanded form must start with '0' or '1'."
  else if js_neq (e 5%nat) "0"%char then
    if js_neq (e 6%nat) "0"%char || js_neq (e 7%nat) "0"%char
       || js_neq (e 8%nat) "0"%char || js_neq (e 9%nat) "0"%char
       || js_lt (e 10%nat) "5"%char then invalidUpcE
    else Ok (join [e 0; e 1; e 2; e 3; e 4; e 5; e 10; c7]%nat)
  else if js_neq (e 4%nat) "0"%char then
    if js_neq (e 6%nat) "0"%char || js_neq (e 7%nat) "0"%char
       || js_neq (e 8%nat) "0"%char || js_neq (e 9%nat) "0"%char then invalidUpcE
    else Ok (join [e 0; e 1; e 2; e 3; e 4; e 10; Some "4"%char; c7]%nat)
  else if js_neq (e 3%nat) "0"%char && js_neq (e 3%nat) "1"%char
          && js_neq (e 3%nat) "2"%char then
    if js_neq (e 6%nat) "0"%char || js_neq (e 7%nat) "0"%char
       || js_neq (e 8%nat) "0"%char then invalidUpcE
    else Ok (join [e 0; e 1; e 2; e 3; e 9; e 10; Some "3"%char; c7]%nat)
  else if js_neq (e 6%nat) "0"%char || js_neq (e 7%nat) "0"%char then invalidUpcE
  else Ok (join [e 0; e 1; e 2; e 8; e 9; e 10; e 3; c7]%nat).

(** The checksum loop of [#expandToUpcADigits] over array slots; reading an
    [undefined] slot ([c.charCodeAt] on [undefined]) throws. *)
Fixpoint sumLoopSlots (l : list (option ascii)) (mul sum : Z) : option Z :=
  match l with
  | [] => Some sum
  | None :: _ => None
  | Some c :: t => sumLoopSlots t (Z.lxor mul 2) (sum + charToDigit c * mul)
  end.

(** [BarcodeBitmap.#expandToUpcADigits(compressed)]. *)
Definition expandToUpcADigits (compressed : jstr) : res jstr :=
  let c i := nth_error compressed i in
  let z := Some "0"%char in
  if js_neq (c 0%nat) "0"%char && js_neq (c 0%nat) "1"%char then
    Throw "UPC-E must start with an explicit or implied '0' or '1'."
  else
    (* slots 1..5 and 8..10 *)
    let '(e1, e2, e3, e4, e5, e8, e9, e10) :=
      if js_eq (c 6%nat) "0"%char || js_eq (c 6%nat) "1"%char
         || js_eq (c 6%nat) "2"%char then
        (c 1, c 2, c 6, z, z, c 3, c 4, c 5)%nat
      else if js_eq (c 6%nat) "3"%char then (c 1, c 2, c 3, z, z, z, c 4, c 5)%nat
      else if js_eq (c 6%nat) "4"%char then (c 1, c 2, c 3, c 4, z, z, z, c 5)%nat
      else (c 1, c 2, c 3, c 4, c 5, z, z, c 6)%nat in
    let first11 := [c 0%nat; e1; e2; e3; e4; e5; z; z; e8; e9; e10] in
    let e11 := c 7%nat in
    if js_eq e11 "?"%char then
      match sumLoopSlots first11 3 0 with
      | Some sum =>
          Ok (flat_map js_join1 first11 ++ [digit_char ((10 - sum mod 10) mod 10)])
      | None => Throw "TypeError"
      end
    else Ok (flat_map js_join1 (first11 ++ [e11])).

(** [BarcodeBitmap.makeUpcE(digits, shortHeight, y, extraWidth)]. *)
Definition makeUpcE (digits : jstr) (shortHeight : bool) (y extraWidth : Z)
  : res bitmap :=
  if negb (reUpcE digits) then Throw "UPC-E must be one of: ..."
  else
    let compressed :=
      match List.length digits with
      | 7%nat => Ok ("0"%char :: digits)
      | 8%nat => Ok digits
      | 12%nat => compressToUpcEDigits digits
      | _ => Throw "TypeError" (* [null[7]]; excluded by the regex *)
      end in
    match compressed with
    | Throw m => Throw m
    | Null => Null
    | Ok compressed =>
        let compressed :=
          if js_eq (nth_error compressed 7) "?"%char then
            match expandToUpcADigits compressed with
            | Ok expanded => Ok (replace_q compressed (at_ expanded 11))
            | Throw m => Throw m
            | Null => Null
            end
          else Ok compressed in
        match compressed with
        | Ok compressed =>
            Ok (if shortHeight then makeUpcEShort compressed y extraWidth
                else makeUpcEFull compressed y extraWidth)
        | Throw m => Throw m
        | Null => Null
        end
    end.

(** [a ?? b()]: [b] runs only when [a] is [null]; a throw propagates. *)
Definition nullish {A} (a : res A) (b : unit -> res A) : res A :=
  match a with Null => b tt | _ => a end.

(** [BarcodeBitmap.makeBarcode(format, digits, shortHeight)]. *)
Definition makeBarcode (format : string) (digits : jstr) (shortHeight : bool)
  : res bitmap :=
  let result :=
    if String.eqb format "upcA" then makeUpcA digits shortHeight 0 0
    else if String.eqb format "upcE" then makeUpcE digits shortHeight 0 0
    else if String.eqb format "ean13" then makeEan13 digits shortHeight 0 0
    else if String.eqb format "ean8" then makeEan8 digits shortHeight 0 0
    else if String.eqb format "dwim" then
      match List.length digits with
      | 7%nat => makeUpcE digits shortHeight 0 0
      | 8%nat => nullish (makeUpcE digits shortHeight 0 0)
                         (fun _ => makeEan8 digits shortHeight 0 0)
      | 12%nat => makeUpcA digits shortHeight 0 0
      | 13%nat => makeEan13 digits shortHeight 0 0
      | _ => Null
      end
    else Throw "ReferenceError: form is not defined" in
  match result with
  | Null => Throw "Invalid format / digits"
  | _ => result
  end.

(** ** Supplements *)

(** [#drawSupplement(digits, x, y1, y2, textAbove)]. *)
Definition drawSupplement (digits : jstr) (x y1 y2 : Z) (textAbove : bool)
  : list op :=
  let len := Z.of_nat (List.length digits) in
  let '(y1, y2, textY) :=
    if textAbove then (y1 + 8, y2, y1) else (y1, y2 - 8, y2 - 8 + 2) in
  let c2d n := charToDigit (nth_z digits n) in
  let '(textX, parity) :=
    if len =? 2 then (x + 5, Z.land (c2d 0 * 10 + c2d 1) 3)
    else if len =? 5 then
      (x + 10, tbl upcELastDigit
                 (((c2d 0 + c2d 2 + c2d 4) * 3 + (c2d 1 + c2d 3) * 9) mod 10))
    else (0, 0) (* [textX] stays undefined; no digit is drawn then *) in
  [Vlin x y1 y2; Vlin (x + 2) y1 y2; Vlin (x + 3) y1 y2]
  ++ forN (List.length digits) (fun i =>
       let lset := if Z.testbit parity (len - 1 - i) then leftB else leftA in
       let baseX := x + 2 + i * 9 in
       (if i =? 0 then [Vlin baseX y1 y2] else [])
       ++ [Vlin (baseX + 1) y1 y2]
       ++ drawUpcEanDigit (baseX + 2) y1 y2 (nth_z digits i) lset
       ++ drawDigitChar (textX + i * 6) textY (nth_z digits i)).

(** [#upcEanSupplementWidth(digits)]. *)
Definition upcEanSupplementWidth (digits : jstr) : Z :=
  match List.length digits with 2%nat => 20 | 5%nat => 47 | _ => 0 end.

(** [BarcodeBitmap.makeSupplement(digits, shortHeight)]. *)
Definition makeSupplement (digits : jstr) (shortHeight : bool) : res bitmap :=
  if negb (((List.length digits =? 2)%nat || (List.length digits =? 5)%nat)
           && forallb is_digit digits) then
    Throw "Supplement must be either 2 or 5 digits."
  else
    let width := upcEanSupplementWidth digits in
    let height := if shortHeight then 40 else 60 in
    let y2 := if shortHeight then height - 1 else height - 4 in
    Ok (mkBitmap width height (drawSupplement digits 0 0 y2 (negb shortHeight))).

(** ** Text ([src/lib/Text.js]) *)

Definition nl : ascii := ascii_of_nat 10.
Definition sp : ascii := " "%char.

(** [Text.measureText(str)]: the loop keeps the longest line seen so far in
    [width] and the current one in [oneWidth]. *)
Fixpoint measureLoop (s : jstr) (width oneWidth lineCount : Z) : Z * Z * Z :=
  match s with
  | [] => (width, oneWidth, lineCount)
  | c :: t =>
      if Ascii.eqb c nl then measureLoop t (Z.max width oneWidth) 0 (lineCount + 1)
      else measureLoop t width (oneWidth + 1) lineCount
  end.

(** Returns [(width, height)]. *)
Definition measureText (s : jstr) : Z * Z :=
  let '(width, oneWidth, lineCount) := measureLoop s 0 0 1 in
  (Z.max width oneWidth * 5 - 1, lineCount * 8).

(** [str.split('\n')]. *)
Fixpoint splitNl (s : jstr) : list jstr :=
  match s with
  | [] => [[]]
  | c :: t =>
      if Ascii.eqb c nl then [] :: splitNl t
      else match splitNl t with
           | l :: ls => (c :: l) :: ls
           | [] => [[c]]
           end
  end.

(** [lines.join('\n')]. *)
Fixpoint joinNl (ls : list jstr) : jstr :=
  match ls with
  | [] => []
  | [l] => l
  | l :: t => l ++ nl :: joinNl t
  end.

Fixpoint dropWhile (f : ascii -> bool) (s : jstr) : jstr :=
  match s with
  | [] => []
  | c :: t => if f c then dropWhile f t else s
  end.

(** [.replace(/ [^ ]*$/, '')]: the leftmost match starts at the last space,
    so that space and what follows it are removed. *)
Definition dropLastWord (s : jstr) : jstr :=
  let r := rev s in
  if existsb (fun c => Ascii.eqb c sp) r
  then rev (tl (dropWhile (fun c => negb (Ascii.eqb c sp)) r))
  else s.

(** [.replace(/^ +/, '')]. *)
Definition dropLeadingSpaces (s : jstr) : jstr :=
  dropWhile (fun c => Ascii.eqb c sp) s.

(** The [while (line !== '')] loop of [Text.#wrapText] for one line.  Each
    round removes at least one character when [max >= 1], so [length line]
    rounds suffice; with [max <= 0] the JS loop never ends and the model
    stops when its fuel runs out. *)
Fixpoint wrapLine (fuel : nat) (line : jstr) (max : Z) : list jstr :=
  match fuel with
  | O => []
  | S fuel =>
      match line with
      | [] => []
      | _ =>
          if Z.of_nat (List.length line) <=? max then [line]
          else
            let frag := dropLastWord (firstn (Z.to_nat max) line) in
            let line := dropLeadingSpaces (skipn (List.length frag) line) in
            frag :: wrapLine fuel line max
      end
  end.

(** [Text.#wrapText(str, max)]. *)
Definition wrapText (s : jstr) (max : Z) : jstr :=
  joinNl (flat_map (fun line => wrapLine (S (List.length line)) line max) (splitNl s)).

(** [Text.makeBitmap(str, maxWidth)]; [Math.trunc(maxWidth / 5)] is [Z.quot]. *)
Definition textMakeBitmap (s : jstr) (maxWidth : option Z) : bitmap :=
  let s := match maxWidth with
           | Some mw => wrapText s (Z.quot mw 5)
           | None => s
           end in
  let '(width, height) := measureText s in
  mkBitmap width height [String5x8 0 0 s].

(** ** Composition ([src/lib/Barcode.js]) *)

Definition MAIN_TO_SUPPLEMENT_SPACE : Z := 8.

(** [Math.trunc(codeWidth * 1.33)].  For the integer widths [0 <= c < 2^40]
    the double product [c * 1.33] truncates to [floor(133 c / 100)]: the
    double nearest 1.33 exceeds it by less than [1e-16], and [133 c / 100]
    is either an integer or at least [1/100] below the next one. *)
Definition widen133 (codeWidth : Z) : Z := codeWidth * 133 / 100.

(** [Barcode.#renderTitleBitmap()]; [None] is [null]. *)
Definition renderTitleBitmap (title : jstr) (main : bitmap) (sup : option bitmap)
  : option bitmap :=
  match title with
  | [] => None
  | _ =>
      let textWidth := fst (measureText title) in
      let codeWidth := match sup with
                       | Some s => bm_width main + MAIN_TO_SUPPLEMENT_SPACE + bm_width s
                       | None => bm_width main
                       end in
      let finalWidth :=
        if textWidth <=? codeWidth then codeWidth else widen133 codeWidth in
      Some (textMakeBitmap title (Some finalWidth))
  end.

(** The composition steps of [Barcode.render()], after the three bitmaps are
    rendered. *)
Definition compose (main : bitmap) (sup title : option bitmap) : bitmap :=
  let result :=
    match sup with
    | Some sup =>
        let newWidth := bm_width main + MAIN_TO_SUPPLEMENT_SPACE + bm_width sup in
        mkBitmap newWidth (bm_height main)
          [CopyRect 0 0 main 0 0 (bm_width main) (bm_height main);
           CopyRect (newWidth - bm_width sup) 0 sup 0 0 (bm_width sup) (bm_height sup)]
    | None => main
    end in
  match title with
  | Some title =>
      let newWidth := Z.max (bm_width result) (bm_width title) in
      let newHeight := bm_height title + 1 + bm_height result in
      mkBitmap newWidth newHeight
        [CopyRect (Z.quot (newWidth - bm_width title) 2) 0
           title 0 0 (bm_width title) (bm_height title);
         CopyRect (Z.quot (newWidth - bm_width result) 2) (bm_height title + 1)
           result 0 0 (bm_width result) (bm_height result)]
  | None => result
  end.

(** [Barcode.render()] with its settings as arguments. *)
Definition render (format : string) (mainDigits supplementDigits : jstr)
  (short : bool) (title : jstr) : res bitmap :=
  match mainDigits with
  | [] => Throw "Missing main code."
  | _ =>
      match makeBarcode format mainDigits short with
      | Ok main =>
          let sup := match supplementDigits with
                     | [] => Ok None
                     | _ => match makeSupplement supplementDigits short with
                            | Ok s => Ok (Some s)
                            | Null => Null
                            | Throw m => Throw m
                            end
                     end in
          match sup with
          | Ok sup => Ok (compose main sup (renderTitleBitmap title main sup))
          | Null => Null
          | Throw m => Throw m
          end
      | Null => Null
      | Throw m => Throw m
      end
  end.

(** ** The C bitmap ([src/original-code/barcode.c]) *)
Module CBitmap.

(** [Bitmap]: [buf] maps a byte offset to its [unsigned char] contents. *)
Record Bitmap : Type := {
  width : Z;
  height : Z;
  widthBytes : Z;
  buf : Z -> Z
}.

(** [makeBitmap(width, height)].  The buffer comes from [malloc], which
    leaves the bytes as [heap] had them; C [/] truncates ([Z.quot]).  The
    sizes are C [int]s: [width + 7] is computed in [int] and overflows
    (undefined behaviour) for [width > INT_MAX - 7]; the model is exact for
    [INT_MIN <= width <= INT_MAX - 7], the range the theorems assume. *)
Definition makeBitmap (heap : Z -> Z) (width height : Z) : Bitmap :=
  {| width := width;
     height := height;
     widthBytes := Z.quot (width + 7) 8;
     buf := fun i => Z.land (heap i) 255 |}.

(** [bitmapGetByte(b, xByte, y)]. *)
Definition bitmapGetByte (b : Bitmap) (xByte y : Z) : Z :=
  if (xByte <? 0) || (xByte >=? widthBytes b) || (y <? 0) || (y >=? height b)
  then 0
  else buf b (widthBytes b * y + xByte).

(** [bitmapGet(b, x, y)]; [>>] on [int] is the arithmetic shift. *)
Definition bitmapGet (b : Bitmap) (x y : Z) : Z :=
  let xbyte := Z.shiftr x 3 in
  let xbit := Z.land x 7 in
  let byteValue := bitmapGetByte b xbyte y in
  Z.shiftr (Z.land byteValue (Z.shiftl 1 xbit)) xbit.

(** [bitmapSet(b, x, y, value)]. *)
Definition bitmapSet (b : Bitmap) (x y value : Z) : Bitmap :=
  let xbyte := Z.shiftr x 3 in
  let xbit := Z.land x 7 in
  if (x <? 0) || (x >=? width b) || (y <? 0) || (y >=? height b) then b
  else
    let idx := widthBytes b * y + xbyte in
    let old := buf b idx in
    let new := if value =? 0 then Z.land old (Z.lnot (Z.shiftl 1 xbit))
               else Z.lor old (Z.shiftl 1 xbit) in
    {| width := width b;
       height := height b;
       widthBytes := widthBytes b;
       buf := fun i => if i =? idx then new else buf b i |}.

(** [bitmapVlin(b, x, y1, y2)]; [fuel] bounds the rows walked. *)
Fixpoint vlinLoop (fuel : nat) (b : Bitmap) (x y1 y2 : Z) : Bitmap :=
  match fuel with
  | O => b
  | S fuel => if y1 <=? y2 then vlinLoop fuel (bitmapSet b x y1 1) x (y1 + 1) y2 else b
  end.

Definition bitmapVlin (b : Bitmap) (x y1 y2 : Z) : Bitmap :=
  vlinLoop (S (Z.to_nat (y2 - y1))) b x y1 y2.

End CBitmap.

(** ** Check digits as the spec words them *)

(** The value of a digit character. *)
Definition digitValue (c : ascii) : Z := Z.of_nat (nat_of_ascii c) - 48.

(** [sum_i w(i) * digit_i], positions counted from [i]. *)
Fixpoint weightedSum (w : nat -> Z) (ds : jstr) (i : nat) : Z :=
  match ds with
  | [] => 0
  | c :: t => w i * digitValue c + weightedSum w t (S i)
  end.

(** [(10 - (sum mod 10)) mod 10]. *)
Definition specCheck (w : nat -> Z) (ds : jstr) : Z :=
  (10 - weightedSum w ds 0 mod 10) mod 10.

(** UPC-A / EAN-8: 3 on positions 0, 2, 4, ..., 1 elsewhere. *)
Definition upcWeight (i : nat) : Z := if Nat.even i then 3 else 1.

(** EAN-13 as the spec words it: 1 on odd positions, 3 on even ones. *)
Definition ean13WeightSpec (i : nat) : Z := if Nat.even i then 3 else 1.

(** EAN-13 with 1 on even positions (0, 2, ...) and 3 on odd ones. *)
Definition ean13Weight (i : nat) : Z := if Nat.even i then 1 else 3.

(** 7-bit complement and 7-bit reversal of a pattern. *)
Definition compl7 (v : Z) : Z := Z.lxor v 127.

Definition rev7 (v : Z) : Z :=
  fold_right Z.add 0
    (map (fun i => if Z.testbit v (Z.of_nat i) then 2 ^ (6 - Z.of_nat i) else 0)
       (seq 0 7)).

(** ** Proofs: checksums *)

Definition alt (m : Z) (i : nat) : Z := if Nat.even i then m else Z.lxor m 2.

Lemma alt_succ (m : Z) (i : nat) : Z.lxor (alt m i) 2 = alt m (S i).
Proof.
  unfold alt. rewrite Nat.even_succ, <- Nat.negb_even.
  destruct (Nat.even i); simpl; [reflexivity|].
  rewrite Z.lxor_assoc, Z.lxor_nilpotent, Z.lxor_0_r. reflexivity.
Qed.

Lemma charToDigit_digit (c : ascii) : is_digit c = true -> charToDigit c = digitValue c.
Proof.
  unfold is_digit, charToDigit, digitValue. intro H.
  apply andb_prop in H as [H1 H2]. apply Nat.leb_le in H1. apply Nat.leb_le in H2.
  replace ((0 <=? Z.of_nat (nat_of_ascii c) - 48) && (Z.of_nat (nat_of_ascii c) - 48 <=? 9))
    with true; [reflexivity|].
  symmetry. apply andb_true_intro. split; apply Z.leb_le; lia.
Qed.

Lemma sumLoop_weighted (ds : jstr) (m s : Z) (i : nat) :
  forallb is_digit ds = true ->
  sumLoop ds (alt m i) s = s + weightedSum (alt m) ds i.
Proof.
  revert s i. induction ds as [|c t IH]; intros s i H; simpl; [lia|].
  simpl in H. apply andb_prop in H as [Hc Ht].
  rewrite alt_succ, IH by exact Ht. rewrite charToDigit_digit by exact Hc. lia.
Qed.

Lemma weightedSum_ext (w1 w2 : nat -> Z) (ds : jstr) (i : nat) :
  (forall j, w1 j = w2 j) -> weightedSum w1 ds i = weightedSum w2 ds i.
Proof.
  intro E. revert i. induction ds as [|c t IH]; intro i; simpl; [reflexivity|].
  rewrite E, IH. reflexivity.
Qed.

Lemma digit_char_is_digit (n : Z) : 0 <= n < 10 -> is_digit (digit_char n) = true.
Proof.
  intro H. unfold is_digit, digit_char. rewrite nat_ascii_embedding by lia.
  apply andb_true_intro. split; apply Nat.leb_le; lia.
Qed.

Lemma digit_char_not_q (n : Z) : 0 <= n < 10 -> Ascii.eqb (digit_char n) "?"%char = false.
Proof.
  intro H. apply Ascii.eqb_neq. intro E.
  assert (E' : nat_of_ascii (digit_char n) = nat_of_ascii "?"%char) by (rewrite E; reflexivity).
  unfold digit_char in E'. rewrite nat_ascii_embedding in E' by lia.
  change (nat_of_ascii "?"%char) with 63%nat in E'. lia.
Qed.

Lemma is_digit_not_q (c : ascii) : is_digit c = true -> Ascii.eqb c "?"%char = false.
Proof.
  intro H. apply Ascii.eqb_neq. intro E. subst c. discriminate H.
Qed.

Lemma replace_q_digits (d : jstr) (q r : ascii) :
  forallb is_digit d = true -> Ascii.eqb q "?"%char = true ->
  replace_q (d ++ [q]) r = d ++ [r].
Proof.
  intros Hd Hq. induction d as [|c t IH]; simpl in *; [rewrite Hq; reflexivity|].
  apply andb_prop in Hd as [Hc Ht]. rewrite is_digit_not_q by exact Hc.
  rewrite IH by exact Ht. reflexivity.
Qed.

Lemma reDigitsCheck_app (n : nat) (d : jstr) (c : ascii) :
  List.length d = n -> forallb is_digit d = true -> is_digit_or_q c = true ->
  reDigitsCheck n (d ++ [c]) = true.
Proof.
  intros Hl Hd Hc. unfold reDigitsCheck, last_ok.
  rewrite length_app, firstn_app, nth_error_app2 by lia. simpl.
  subst n. rewrite Nat.add_comm, Nat.eqb_refl, firstn_all, Nat.sub_diag. simpl.
  rewrite app_nil_r, Hd, Hc. reflexivity.
Qed.

Lemma checksumChar_spec (n : nat) (d : jstr) (c : ascii) (m : Z) (w : nat -> Z) :
  List.length d = n -> forallb is_digit d = true -> (forall j, alt m j = w j) ->
  checksumChar (d ++ [c]) n m = digit_char (specCheck w d).
Proof.
  intros Hl Hd Hw. unfold checksumChar, specCheck.
  subst n. rewrite firstn_app, firstn_all, Nat.sub_diag. simpl firstn.
  rewrite app_nil_r.
  change m with (alt m 0). rewrite sumLoop_weighted by exact Hd.
  rewrite (weightedSum_ext (alt (alt m 0)) w); [reflexivity|].
  intro j. rewrite <- Hw. reflexivity.
Qed.

Lemma nth_error_app_last (d : jstr) (c : ascii) (n : nat) :
  List.length d = n -> nth_error (d ++ [c]) n = Some c.
Proof.
  intro Hl. rewrite nth_error_app2 by lia. rewrite Hl, Nat.sub_diag. reflexivity.
Qed.

Lemma specCheck_range (w : nat -> Z) (d : jstr) : 0 <= specCheck w d < 10.
Proof. unfold specCheck. apply Z.mod_pos_bound. lia. Qed.

Lemma upcWeight_alt (j : nat) : alt 3 j = upcWeight j.
Proof. unfold alt, upcWeight. destruct (Nat.even j); reflexivity. Qed.

Lemma ean13Weight_alt (j : nat) : alt 1 j = ean13Weight j.
Proof. unfold alt, ean13Weight. destruct (Nat.even j); reflexivity. Qed.

(** C1: for 11 ASCII digits [d], [makeUpcA(d + '?')] renders exactly what
    [makeUpcA] renders for [d] followed by the check digit
    [(10 - (sum mod 10)) mod 10], the sum weighting positions 0, 2, 4, ...
    by 3 and the others by 1. *)
Theorem makeUpcA_check_digit (d : jstr) (sh : bool) (y ew : Z)
  (Hlen : List.length d = 11%nat) (Hdig : forallb is_digit d = true) :
  makeUpcA (d ++ ["?"%char]) sh y ew
  = makeUpcA (d ++ [digit_char (specCheck upcWeight d)]) sh y ew.
Proof.
  pose proof (specCheck_range upcWeight d) as Hr.
  unfold makeUpcA.
  rewrite !reDigitsCheck_app by
    (try exact Hlen; try exact Hdig; unfold is_digit_or_q;
     try rewrite digit_char_is_digit by exact Hr; reflexivity).
  rewrite !nth_error_app_last by exact Hlen. simpl negb. cbv iota beta.
  unfold js_eq, js_neq. rewrite digit_char_not_q by exact Hr. simpl.
  rewrite replace_q_digits by (exact Hdig || reflexivity).
  rewrite (checksumChar_spec 11 d "?"%char 3 upcWeight Hlen Hdig upcWeight_alt).
  reflexivity.
Qed.

(** C3: for 12 ASCII digits [d], [makeEan13(d + '?')] renders [d] followed by
    [(10 - (sum mod 10)) mod 10], the sum weighting positions 0, 2, 4, ...
    by 1 and the others by 3; a final digit [c] is drawn as given. *)
Theorem makeEan13_check_digit (d : jstr) (c : ascii) (sh : bool) (y ew : Z)
  (Hlen : List.length d = 12%nat) (Hdig : forallb is_digit d = true)
  (Hc : is_digit c = true) :
  makeEan13 (d ++ ["?"%char]) sh y ew
  = makeEan13 (d ++ [digit_char (specCheck ean13Weight d)]) sh y ew
  /\ makeEan13 (d ++ [c]) sh y ew
     = Ok (if sh then makeEan13Short (d ++ [c]) y ew else makeEan13Full (d ++ [c]) y ew).
Proof.
  pose proof (specCheck_range ean13Weight d) as Hr.
  unfold makeEan13.
  rewrite !reDigitsCheck_app by
    (try exact Hlen; try exact Hdig; unfold is_digit_or_q;
     try rewrite Hc; try rewrite digit_char_is_digit by exact Hr; reflexivity).
  rewrite !nth_error_app_last by exact Hlen. simpl negb. cbv iota beta.
  unfold js_eq, js_neq. rewrite digit_char_not_q by exact Hr.
  rewrite (is_digit_not_q c Hc). simpl.
  rewrite replace_q_digits by (exact Hdig || reflexivity).
  rewrite (checksumChar_spec 12 d "?"%char 1 ean13Weight Hlen Hdig ean13Weight_alt).
  split; reflexivity.
Qed.

Lemma makeUpcA_check_digit_witness :
  List.length (str "63447948954") = 11%nat
  /\ forallb is_digit (str "63447948954") = true
  /\ makeUpcA (str "63447948954?") false 0 0 = makeUpcA (str "634479489549") false 0 0.
Proof.
  split; [reflexivity|]. split; [reflexivity|].
  exact (makeUpcA_check_digit (str "63447948954") false 0 0 eq_refl eq_refl).
Defined.

(** C1: the spec's example ['63447948954?'] does not get the check digit 7:
    its sum is 131, and the rendering differs from that of ['634479489547']. *)
Lemma makeUpcA_example_not_7 :
  weightedSum upcWeight (str "63447948954") 0 = 131
  /\ specCheck upcWeight (str "63447948954") = 9
  /\ makeUpcA (str "63447948954?") false 0 0 <> makeUpcA (str "634479489547") false 0 0.
Proof.
  split; [reflexivity|]. split; [reflexivity|].
  vm_compute. intro H. discriminate H.
Qed.

Lemma makeEan13_check_digit_witness :
  List.length (str "100000000000") = 12%nat
  /\ forallb is_digit (str "100000000000") = true
  /\ is_digit "5"%char = true
  /\ makeEan13 (str "100000000000?") false 0 0 = makeEan13 (str "1000000000009") false 0 0
  /\ makeEan13 (str "1000000000005") false 0 0 = Ok (makeEan13Full (str "1000000000005") 0 0).
Proof.
  destruct (makeEan13_check_digit (str "100000000000") "5"%char false 0 0
              eq_refl eq_refl eq_refl) as [H1 H2].
  split; [reflexivity|]. split; [reflexivity|]. split; [reflexivity|].
  split; [exact H1 | exact H2].
Defined.

(** C3: with the spec's weights (3 on even positions) ['100000000000?'] would
    get the check digit 7; [makeEan13] draws 9 there, not 7. *)
Lemma makeEan13_spec_weights_counterexample :
  specCheck ean13WeightSpec (str "100000000000") = 7
  /\ makeEan13 (str "100000000000?") false 0 0 <> makeEan13 (str "1000000000007") false 0 0.
Proof.
  split; [reflexivity|]. vm_compute. intro H. discriminate H.
Qed.

(** ** Proofs: pattern tables *)

(** C6: the Right table is the 7-bit complement of the Left-A table, entry
    for entry, with no reversal; the reversed Right table is Left-B. *)
Theorem upcRight_is_complement_of_leftA :
  map compl7 upcLeftA = upcRight /\ map rev7 upcRight = upcLeftB.
Proof. split; vm_compute; reflexivity. Qed.

(** C6: for digit 0 the reversed complement of Left-A is [0x27] (the Left-B
    entry), not the Right entry [0x72]. *)
Lemma upcRight_not_reversed_complement :
  rev7 (compl7 (tbl upcLeftA 0)) = 0x27 /\ tbl upcRight 0 = 0x72
  /\ rev7 (compl7 (tbl upcLeftA 0)) <> tbl upcRight 0.
Proof. vm_compute. split; [reflexivity|]. split; [reflexivity|]. discriminate. Qed.

(** ** Proofs: UPC-E compression *)

Lemma has0000_tail (a : ascii) (t : jstr) : has0000 (a :: t) = false -> has0000 t = false.
Proof. simpl. destruct (has0000 t); [rewrite orb_true_r|]; auto. Qed.

(** Case analysis on the character comparisons of a hypothesis or of the
    goal: each [Ascii.eqb a b] or [nat_of_ascii a <? n] is split, equalities
    substituted, and contradictory branches closed. *)
Ltac char_simpl_in H := cbn [negb andb orb Ascii.eqb Bool.eqb] in H.

Ltac close_ltb :=
  match goal with
  | E : (nat_of_ascii ?a <? ?n)%nat = ?b |- _ =>
      is_constructor_char a; vm_compute in E; discriminate E
  end
with is_constructor_char a := match a with Ascii _ _ _ _ _ _ _ _ => idtac end.

Ltac split_char_tests H :=
  repeat match type of H with
  | context [Ascii.eqb ?a ?b] =>
      let E := fresh "E" in
      revert H; destruct (Ascii.eqb a b) eqn:E; intro H;
      [apply Ascii.eqb_eq in E; try subst a | apply Ascii.eqb_neq in E];
      char_simpl_in H; try discriminate H
  | context [Nat.ltb (nat_of_ascii ?a) ?n] =>
      let E := fresh "E" in
      revert H; destruct (Nat.ltb (nat_of_ascii a) n) eqn:E; intro H;
      char_simpl_in H; try discriminate H
  end.

Ltac split_goal_tests :=
  repeat match goal with
  | |- context [Ascii.eqb ?a ?b] =>
      let E := fresh "E" in
      destruct (Ascii.eqb a b) eqn:E;
      [apply Ascii.eqb_eq in E; try subst a | apply Ascii.eqb_neq in E];
      cbn [negb andb orb Ascii.eqb Bool.eqb];
      try congruence; try close_ltb
  end.

Ltac unfold_twelve x :=
  do 12 (destruct x as [|? x]; [discriminate|]);
  destruct x; [|discriminate].

(** C2: a 12-character string that [#compressToUpcEDigits] compresses is
    given back by [#expandToUpcADigits] on positions 0 to 10 (the check
    position 11 is copied or recomputed, not compared). *)
Theorem expand_compress_upcE (x c : jstr)
  (Hlen : List.length x = 12%nat) (Hc : compressToUpcEDigits x = Ok c) :
  exists e, expandToUpcADigits c = Ok e /\ firstn 11 e = firstn 11 x.
Proof.
  unfold_twelve x. clear Hlen.
  unfold compressToUpcEDigits in Hc. cbn [nth_error js_neq js_lt negb] in Hc.
  split_char_tests Hc.
  all: injection Hc as <-.
  all: unfold expandToUpcADigits, js_eq, js_neq;
       cbn [flat_map js_join1 app nth_error negb andb orb Ascii.eqb Bool.eqb].
  all: split_goal_tests.
  all: cbn [sumLoopSlots]; eexists; split; reflexivity.
Qed.

Lemma expand_compress_upcE_witness :
  List.length (str "012000003456") = 12%nat
  /\ compressToUpcEDigits (str "012000003456") = Ok (str "01234506")
  /\ exists e, expandToUpcADigits (str "01234506") = Ok e
               /\ firstn 11 e = firstn 11 (str "012000003456").
Proof.
  split; [reflexivity|]. split; [reflexivity|].
  exact (expand_compress_upcE (str "012000003456") (str "01234506") eq_refl eq_refl).
Defined.

Lemma compress_has0000 (s c : jstr)
  (Hlen : List.length s = 12%nat) (Hc : compressToUpcEDigits s = Ok c) :
  has0000 s = true.
Proof.
  unfold_twelve s. clear Hlen.
  unfold compressToUpcEDigits in Hc. cbn [nth_error js_neq js_lt negb] in Hc.
  split_char_tests Hc.
  all: cbn [has0000 prefix0000 Ascii.eqb Bool.eqb andb orb];
       rewrite ?orb_true_r; reflexivity.
Qed.

Lemma reUpcE12_has0000 (s : jstr) :
  List.length s = 12%nat -> reUpcE s = true -> has0000 s = true.
Proof.
  intros Hlen H. unfold reUpcE in H. rewrite Hlen in H.
  destruct s as [|a t]; [discriminate|]. simpl skipn in H. simpl.
  apply andb_prop in H as [H _]. apply andb_prop in H as [H _].
  apply andb_prop in H as [_ H]. rewrite H, orb_true_r. reflexivity.
Qed.

(** C10: on a 12-character input, both the [makeUpcE] regex and every
    template of [#compressToUpcEDigits] that succeeds need the substring
    [0000]; without it [makeUpcE] throws. *)
Theorem makeUpcE_requires_0000 (s : jstr) (sh : bool) (y ew : Z)
  (Hlen : List.length s = 12%nat) :
  (reUpcE s = true -> has0000 s = true)
  /\ (forall c, compressToUpcEDigits s = Ok c -> has0000 s = true)
  /\ (has0000 s = false -> exists m, makeUpcE s sh y ew = Throw m).
Proof.
  split; [exact (reUpcE12_has0000 s Hlen)|].
  split; [intros c Hc; exact (compress_has0000 s c Hlen Hc)|].
  intro H0. unfold makeUpcE.
  destruct (reUpcE s) eqn:Hre.
  - rewrite (reUpcE12_has0000 s Hlen Hre) in H0. discriminate H0.
  - eexists. reflexivity.
Qed.

Lemma makeUpcE_requires_0000_witness :
  List.length (str "012300045676") = 12%nat
  /\ has0000 (str "012300045676") = false
  /\ makeUpcE (str "012300045676") false 0 0 = Throw "UPC-E must be one of: ...".
Proof.
  split; [reflexivity|]. split; [reflexivity|].
  destruct (makeUpcE_requires_0000 (str "012300045676") false 0 0 eq_refl)
    as [_ [_ H]].
  destruct (H eq_refl) as [m Hm]. rewrite Hm.
  vm_compute in Hm. rewrite <- Hm. reflexivity.
Defined.

(** ** Proofs: format dispatch *)

(** C4: in [dwim] mode an 8-digit string not starting with [0] or [1] is
    not rendered as EAN-8: [makeUpcE] throws instead of returning [null], so
    the [?? makeEan8(...)] fallback never runs, although [makeEan8] renders
    the same digits. *)
Theorem makeBarcode_dwim8_no_ean8_fallback :
  makeBarcode "dwim" (str "23456789") false = Throw "UPC-E must be one of: ..."
  /\ makeEan8 (str "23456789") false 0 0 = Ok (makeEan8Full (str "23456789") 0 0).
Proof. split; reflexivity. Qed.

(** The six guard lines of a full-height UPC-A drawn at [x = 6], [y = 0]. *)
Definition upcAFullGuards : list op :=
  [Vlin 6 0 56; Vlin 8 0 56; Vlin 52 0 56; Vlin 54 0 56; Vlin 98 0 56; Vlin 100 0 56].

(** C5: [dwim] has no case for 11 characters, so ['12345665432'] is
    refused. *)
Lemma makeBarcode_dwim_11_digits_fails :
  makeBarcode "dwim" (str "12345665432") false = Throw "Invalid format / digits".
Proof. reflexivity. Qed.

(** C5: ['12345665432'] in [dwim] mode throws; with the check placeholder
    (['12345665432?'], 12 characters) it renders a 107 x 60 UPC-A whose
    header, centre and trailer guards are lines from row 0 to row 56 at
    columns 6, 8, 52, 54, 98 and 100. *)
Theorem makeBarcode_dwim_upcA_example :
  makeBarcode "dwim" (str "12345665432") false = Throw "Invalid format / digits"
  /\ exists b, makeBarcode "dwim" (str "12345665432?") false = Ok b
       /\ bm_width b = 107 /\ bm_height b = 60
       /\ firstn 6 (bm_ops b) = upcAFullGuards.
Proof.
  split; [reflexivity|].
  eexists. split; [reflexivity|]. split; [reflexivity|]. split; reflexivity.
Qed.

(** ** Proofs: the C bitmap *)

Lemma bitmapSet_out_of_bounds (b : CBitmap.Bitmap) (x y v : Z) :
  (x < 0 \/ x >= CBitmap.width b \/ y < 0 \/ y >= CBitmap.height b) ->
  CBitmap.bitmapSet b x y v = b.
Proof.
  intro H. unfold CBitmap.bitmapSet.
  replace ((x <? 0) || (x >=? CBitmap.width b) || (y <? 0) || (y >=? CBitmap.height b))
    with true; [reflexivity|].
  symmetry. rewrite !orb_true_iff, Z.ltb_lt, Z.ltb_lt, !Z.geb_le. lia.
Qed.

(** C7: [bitmapGet] bounds-checks the byte column only: on a 1 x 1 bitmap
    whose freshly [malloc]ed byte holds [0xff], the pixel at [x = 1] (outside
    the width) reads 1. *)
Theorem bitmapGet_reads_padding_bit :
  CBitmap.width (CBitmap.makeBitmap (fun _ => 255) 1 1) = 1
  /\ CBitmap.bitmapGet (CBitmap.makeBitmap (fun _ => 255) 1 1) 1 0 = 1.
Proof. split; reflexivity. Qed.

(** C9: [makeBitmap] accepts a negative width and returns a bitmap. *)
Lemma makeBitmap_negative_width_accepted :
  CBitmap.width (CBitmap.makeBitmap (fun _ => 0) (-1) 1) = -1
  /\ CBitmap.height (CBitmap.makeBitmap (fun _ => 0) (-1) 1) = 1.
Proof. split; reflexivity. Qed.

Lemma quot_widthBytes_nonpos (w : Z) : w < 0 -> Z.quot (w + 7) 8 <= 0.
Proof.
  intro H. destruct (Z_le_gt_dec 0 (w + 7)) as [H0|H0].
  - rewrite Z.quot_small by lia. lia.
  - replace (w + 7) with (- (- (w + 7))) by lia. rewrite Z.quot_opp_l by lia.
    pose proof (Z.quot_pos (- (w + 7)) 8) as P. lia.
Qed.

(** C9: [makeBitmap] has no dimension check and no error: for every [int]
    width with [width + 7] not overflowing ([INT_MIN <= w <= INT_MAX - 7])
    it returns a bitmap of exactly the requested width and height, row
    stride [(width + 7) / 8]; when a dimension is negative every read is 0. *)
Theorem makeBitmap_no_dimension_check (heap : Z -> Z) (w h : Z)
  (Hw : - 2 ^ 31 <= w <= 2 ^ 31 - 1 - 7) :
  CBitmap.width (CBitmap.makeBitmap heap w h) = w
  /\ CBitmap.height (CBitmap.makeBitmap heap w h) = h
  /\ CBitmap.widthBytes (CBitmap.makeBitmap heap w h) = Z.quot (w + 7) 8
  /\ ((w < 0 \/ h < 0) ->
      forall x y, CBitmap.bitmapGet (CBitmap.makeBitmap heap w h) x y = 0).
Proof.
  split; [reflexivity|]. split; [reflexivity|]. split; [reflexivity|].
  intros Hneg x y. unfold CBitmap.bitmapGet.
  assert (Hz : forall xb, CBitmap.bitmapGetByte (CBitmap.makeBitmap heap w h) xb y = 0).
  { intro xb. unfold CBitmap.bitmapGetByte.
    cbn [CBitmap.makeBitmap CBitmap.widthBytes CBitmap.height].
    replace ((xb <? 0) || (xb >=? Z.quot (w + 7) 8) || (y <? 0) || (y >=? h))
      with true; [reflexivity|].
    symmetry. rewrite !orb_true_iff, Z.ltb_lt, Z.ltb_lt, !Z.geb_le.
    destruct Hneg as [Hn|Hh].
    - pose proof (quot_widthBytes_nonpos w Hn). lia.
    - lia. }
  rewrite Hz, Z.land_0_l. apply Z.shiftr_0_l.
Qed.

Lemma makeBitmap_no_dimension_check_witness :
  - 2 ^ 31 <= -9 <= 2 ^ 31 - 1 - 7
  /\ CBitmap.widthBytes (CBitmap.makeBitmap (fun _ => 255) (-9) 3) = Z.quot (-9 + 7) 8
  /\ CBitmap.bitmapGet (CBitmap.makeBitmap (fun _ => 255) (-9) 3) 0 0 = 0.
Proof.
  assert (Hw : - 2 ^ 31 <= -9 <= 2 ^ 31 - 1 - 7) by lia.
  destruct (makeBitmap_no_dimension_check (fun _ => 255) (-9) 3 Hw) as [_ [_ [E R]]].
  split; [exact Hw|]. split; [exact E|].
  apply R. left. lia.
Defined.

(** ** Proofs: title composition *)

(** Width of the code part (main code, plus gap and supplement if any). *)
Definition codeWidthOf (main : bitmap) (sup : option bitmap) : Z :=
  match sup with
  | Some s => bm_width main + MAIN_TO_SUPPLEMENT_SPACE + bm_width s
  | None => bm_width main
  end.

Lemma centered_offset (W w : Z) :
  w <= W ->
  0 <= Z.quot (W - w) 2 /\ Z.quot (W - w) 2 + w <= W
  /\ 0 <= (W - (Z.quot (W - w) 2 + w)) - Z.quot (W - w) 2 <= 1.
Proof.
  intro H.
  pose proof (Z.quot_rem' (W - w) 2) as E.
  pose proof (Z.rem_bound_pos (W - w) 2 ltac:(lia) ltac:(lia)) as R.
  lia.
Qed.

(** C8: with a non-empty title the title bitmap is [Text.makeBitmap(title,
    m)] with [m] the code width when the unwrapped title is at most that
    wide and [trunc(1.33 * codeWidth)] otherwise; the result is
    [max(codeWidth, titleWidth)] wide, the title at row 0 and the code at
    row [titleHeight + 1], each at [x = trunc((W - width) / 2)], so centred
    to within one pixel. *)
Theorem render_title_layout (main : bitmap) (sup : option bitmap) (title : jstr)
  (Htitle : title <> []) :
  let cw := codeWidthOf main sup in
  let t := textMakeBitmap title
             (Some (if fst (measureText title) <=? cw then cw else widen133 cw)) in
  let code := compose main sup None in
  let W := Z.max cw (bm_width t) in
  renderTitleBitmap title main sup = Some t
  /\ compose main sup (Some t)
     = mkBitmap W (bm_height t + 1 + bm_height code)
         [CopyRect (Z.quot (W - bm_width t) 2) 0 t 0 0 (bm_width t) (bm_height t);
          CopyRect (Z.quot (W - cw) 2) (bm_height t + 1) code 0 0 cw (bm_height code)]
  /\ (0 <= Z.quot (W - bm_width t) 2 /\ Z.quot (W - bm_width t) 2 + bm_width t <= W
      /\ 0 <= (W - (Z.quot (W - bm_width t) 2 + bm_width t)) - Z.quot (W - bm_width t) 2 <= 1)
  /\ (0 <= Z.quot (W - cw) 2 /\ Z.quot (W - cw) 2 + cw <= W
      /\ 0 <= (W - (Z.quot (W - cw) 2 + cw)) - Z.quot (W - cw) 2 <= 1).
Proof.
  intros cw t code W.
  split.
  - unfold renderTitleBitmap. destruct title as [|a r]; [contradiction|]. reflexivity.
  - split.
    + subst cw t code W. destruct sup; reflexivity.
    + split; apply centered_offset; unfold W; lia.
Qed.

Lemma render_title_layout_witness :
  str "milk.com" <> []
  /\ renderTitleBitmap (str "milk.com") (makeUpcAFull (str "123456654327") 0 0) None
     = Some (textMakeBitmap (str "milk.com") (Some 107)).
Proof.
  split; [discriminate|].
  exact (proj1 (render_title_layout (makeUpcAFull (str "123456654327") 0 0) None
                  (str "milk.com") ltac:(discriminate))).
Defined.

(** A title of 40 letters without spaces. *)
Definition longTitle : jstr := repeat "A"%char 40.

(** C8: the 133% wrap applies to a title wider than the code, not to a
    narrower one.  A narrower title is made at the code width (107, not
    142); the 40-letter title, 199 pixels wide unwrapped, is wrapped to 28
    columns, and the composed image is 139 wide rather than
    [max(107, 199)]. *)
Lemma render_title_wrap_condition :
  renderTitleBitmap (str "milk.com") (makeUpcAFull (str "123456654327") 0 0) None
    = Some (textMakeBitmap (str "milk.com") (Some 107))
  /\ widen133 107 = 142
  /\ fst (measureText longTitle) = 199
  /\ exists b, render "upcA" (str "12345665432?") [] false longTitle = Ok b
               /\ bm_width b = 139 /\ bm_width b <> Z.max 107 199.
Proof.
  split; [reflexivity|]. split; [reflexivity|]. split; [reflexivity|].
  eexists. split; [reflexivity|]. split; [reflexivity|]. discriminate.
Qed.
